(** * ring3d.js: the 3D tolerance-ring viewer

    A shallow embedding of [src/js/ring3d.js].  The file has two functions:
    [create3DRingViewer], which builds a Three.js scene around an extruded
    ring profile, and [generateRing3D], which returns a placeholder markup
    and defers the viewer's construction with a timer.

    - The arithmetic of the source is computed by Rocq functions over a
      number interface [JSNumber]; the program is written once over the
      interface.  JavaScript numbers are IEEE binary64 values: the
      interface is instantiated with primitive binary64 floats, with
      [Math.sin] and [Math.cos] given by the host.
    - The calls into Three.js and the DOM are recorded, in source order, as
      a list of [Effect]s whose arguments are the evaluated values.
    - Closures are first-order tags ([Closure]) with the values they capture;
      [call_closure] runs their bodies against the page of that moment.  The
      resize listener is a [Handler]: its body reads the element it has
      captured, whose state at the time of the event is its argument. *)

From Stdlib Require Import ZArith List String Bool Lia.
From Stdlib Require Import Floats.
From Stdlib Require DecimalString DecimalPos DecimalZ.
Import ListNotations.

Local Open Scope string_scope.
Local Open Scope Z_scope.
Local Open Scope list_scope.
Local Set Warnings "-register-all".

(** ** Numbers *)

(** The operations of JavaScript numbers that the source uses.  [of_Z]
    injects an integer literal or an integer-valued loop counter. *)
Class JSNumber (num : Type) := {
  of_Z : Z -> num;
  add : num -> num -> num;
  sub : num -> num -> num;
  mul : num -> num -> num;
  div : num -> num -> num;
  opp : num -> num;
  Math_PI : num;
  Math_sin : num -> num;
  Math_cos : num -> num
}.

Declare Scope js_scope.
Delimit Scope js_scope with js.
Infix "+" := add : js_scope.
Infix "-" := sub : js_scope.
Infix "*" := mul : js_scope.
Infix "/" := div : js_scope.
Notation "- x" := (opp x) : js_scope.

(** A decimal literal [p / 10^k], written as the quotient of two integers:
    both are exact in binary64 and the quotient is correctly rounded, so it
    is the binary64 value of the literal. *)
Definition dec {num} `{JSNumber num} (p q : Z) : num := (of_Z p / of_Z q)%js.

(** ** Values, closures and effects *)

Section Program.

Context {num : Type} `{JSNumber num}.

(** A piece of a template literal: fixed text or an interpolated value. *)
Inductive Piece :=
| PStr (s : string)
| PNum (x : num).

(** The function values the source creates, with what they capture. *)
Inductive Closure :=
| animate
| exportSTL (partNumber : string)
| initViewer (containerId partNumber : string) (bore width : num).

(** The event listener the source creates.  It closes over the container
    element, the camera and the renderer. *)
Inductive Handler :=
| onResize.

(** Evaluated JavaScript values.  Library objects are not inspected by the
    source and stay symbolic: [VRef] is a [const] of the running function,
    [VField] a property read on one, [VNew] a constructor call and [VCall] a
    method call used as an expression. *)
Inductive Value :=
| VUndefined
| VNum (x : num)
| VBool (b : bool)
| VStr (s : string)
| VTemplate (pieces : list Piece)
| VRef (name : string)
| VField (obj prop : string)
| VNew (ctor : string) (args : list Value)
| VCall (obj method : string) (args : list Value)
| VArr (items : list Value)
| VObj (fields : list (string * Value))
| VFun (c : Closure)
| VHandler (h : Handler).

(** One statement with an effect outside the function's own arithmetic. *)
Inductive Effect :=
| EConst (name : string) (v : Value)            (* const name = v *)
| ESet (obj prop : string) (v : Value)          (* obj.prop = v *)
| EDo (obj method : string) (args : list Value) (* obj.method(args) *).

(** The page as the function sees it. *)
Record Element := { clientWidth : num; clientHeight : num }.
Record Document := { getElementById : string -> option Element }.

(** ** The counted loop *)

(** [for_steps n i body] runs [body i], [body (i+1)], ... [n] times. *)
Fixpoint for_steps (n : nat) (i : Z) (body : Z -> list Effect) : list Effect :=
  match n with
  | O => []
  | S n' => body i ++ for_steps n' (i + 1) body
  end.

(** [for (let i = lo; i <= hi; i++) body(i)] over integer bounds. *)
Definition for_le (lo hi : Z) (body : Z -> list Effect) : list Effect :=
  for_steps (Z.to_nat (hi + 1 - lo)) lo body.

(** ** The wavy outer edge (lines 36-50) *)

Definition waveAmplitude : num := dec 5 10.

Definition angle (waves i : Z) : num :=
  ((of_Z i / of_Z waves) * Math_PI * of_Z 2)%js.

Definition radius (outerRadius : num) (i : Z) : num :=
  (outerRadius + (Math_sin (of_Z i * of_Z 2) * waveAmplitude))%js.

Definition point (outerRadius : num) (waves i : Z) : num * num :=
  let x := (Math_cos (angle waves i) * radius outerRadius i)%js in
  let y := (Math_sin (angle waves i) * radius outerRadius i)%js in
  (x, y).

Definition edge_step (outerRadius : num) (waves i : Z) : list Effect :=
  let '(x, y) := point outerRadius waves i in
  if i =? 0
  then [EDo "shape" "moveTo" [VNum x; VNum y]]
  else [EDo "shape" "lineTo" [VNum x; VNum y]].

Definition outer_edge (outerRadius : num) (waves : Z) : list Effect :=
  for_le 0 waves (edge_step outerRadius waves).

(** The point a statement hands to the shape, if it is a [moveTo] or a
    [lineTo] on it. *)
Definition shape_point (e : Effect) : option (num * num) :=
  match e with
  | EDo obj method [VNum x; VNum y] =>
      if ((obj =? "shape") && ((method =? "moveTo") || (method =? "lineTo")))%string
      then Some (x, y) else None
  | _ => None
  end.

(** The points handed to the shape, in order. *)
Fixpoint outline (tr : list Effect) : list (num * num) :=
  match tr with
  | [] => []
  | e :: tr' =>
      match shape_point e with
      | Some p => p :: outline tr'
      | None => outline tr'
      end
  end.

(** ** Text *)

Definition dq : string := String (Ascii.ascii_of_nat 34) EmptyString.
Definition nl : string := String (Ascii.ascii_of_nat 10) EmptyString.

(** [indent k s] is [s] after a line break and [k] spaces, the layout of
    the source's multi-line template literals. *)
Fixpoint spaces (k : nat) : string :=
  match k with
  | O => EmptyString
  | S k' => String (Ascii.ascii_of_nat 32) (spaces k')
  end.
Definition indent (k : nat) (s : string) : string := (nl ++ spaces k ++ s)%string.

(** [string_of_Z n] is the decimal text that a template literal
    interpolates for the integer [n]. *)
Definition string_of_Z (n : Z) : string :=
  DecimalString.NilZero.string_of_int (Z.to_int n).

Definition default {A} (d : A) (arg : option A) : A :=
  match arg with
  | Some a => a
  | None => d
  end.

Local Notation "# z" := (VNum (of_Z z)) (at level 9, z at level 9, format "# z").

(** ** The closures' bodies *)

(** [function animate()] (lines 114-118). *)
Definition animate_body : list Effect :=
  [ EDo "window" "requestAnimationFrame" [VFun animate];
    EDo "controls" "update" [];
    EDo "renderer" "render" [VRef "scene"; VRef "camera"] ].


(** [exportSTL] of the returned bundle (lines 154-162). *)
Definition exportSTL_body (partNumber : string) : list Effect :=
  [ EConst "exporter" (VNew "THREE.STLExporter" []);
    EConst "stlString" (VCall "exporter" "parse" [VRef "ring"]);
    EConst "blob" (VNew "Blob" [VArr [VRef "stlString"]; VObj [("type", VStr "text/plain")]]);
    EConst "link" (VCall "document" "createElement" [VStr "a"]);
    ESet "link" "href" (VCall "URL" "createObjectURL" [VRef "blob"]);
    ESet "link" "download" (VTemplate [PStr partNumber; PStr ".stl"]);
    EDo "link" "click" [] ].

(** ** create3DRingViewer (lines 3-164) *)

Definition default_thickness : num := dec 203 1000.
Definition default_waves : Z := 16.

(** The ring's radii (lines 30-31). *)
Definition outerRadius (bore : num) : num := (bore / of_Z 2)%js.
Definition innerRadius (bore thickness : num) : num :=
  (outerRadius bore - thickness)%js.

(** Lines 8-27: scene, camera, renderer and lights. *)
Definition setup_scene (container : Element) : list Effect :=
  let aspect := (clientWidth container / clientHeight container)%js in
  [ EConst "scene" (VNew "THREE.Scene" []);
    ESet "scene" "background" (VNew "THREE.Color" [#0xf8f9fa]);
    EConst "camera"
      (VNew "THREE.PerspectiveCamera" [#45; VNum aspect; VNum (dec 1 10); #1000]);
    EConst "renderer" (VNew "THREE.WebGLRenderer" [VObj [("antialias", VBool true)]]);
    EDo "renderer" "setSize" [VNum (clientWidth container); VNum (clientHeight container)];
    ESet "renderer" "shadowMap.enabled" (VBool true);
    EDo "container" "appendChild" [VField "renderer" "domElement"];
    EConst "ambientLight" (VNew "THREE.AmbientLight" [#0xffffff; VNum (dec 6 10)]);
    EDo "scene" "add" [VRef "ambientLight"];
    EConst "directionalLight" (VNew "THREE.DirectionalLight" [#0xffffff; VNum (dec 4 10)]);
    EDo "directionalLight.position" "set" [#50; #50; #50];
    ESet "directionalLight" "castShadow" (VBool true);
    EDo "scene" "add" [VRef "directionalLight"] ].

(** Lines 35-55: the profile, its wavy outer edge and its hole. *)
Definition build_shape (bore thickness : num) (waves : Z) : list Effect :=
  [ EConst "shape" (VNew "THREE.Shape" []) ]
  ++ outer_edge (outerRadius bore) waves
  ++ [ EConst "holePath" (VNew "THREE.Path" []);
       EDo "holePath" "absarc"
         [#0; #0; VNum (innerRadius bore thickness); #0; VNum (Math_PI * of_Z 2)%js; VBool true];
       EDo "shape.holes" "push" [VRef "holePath"] ].

(** Lines 58-91: extrusion, material, mesh and edge overlay. *)
Definition build_mesh (width : num) : list Effect :=
  let height := width in
  [ EConst "extrudeSettings"
      (VObj [ ("depth", VNum height);
              ("bevelEnabled", VBool true);
              ("bevelThickness", VNum (dec 1 10));
              ("bevelSize", VNum (dec 1 10));
              ("bevelSegments", #2);
              ("steps", #2) ]);
    EConst "geometry" (VNew "THREE.ExtrudeGeometry" [VRef "shape"; VRef "extrudeSettings"]);
    EConst "material"
      (VNew "THREE.MeshPhongMaterial"
         [VObj [ ("color", #0xaaaaaa);
                 ("specular", #0xffffff);
                 ("shininess", #100);
                 ("metalness", VNum (dec 8 10));
                 ("roughness", VNum (dec 2 10));
                 ("side", VField "THREE" "DoubleSide") ]]);
    EConst "ring" (VNew "THREE.Mesh" [VRef "geometry"; VRef "material"]);
    ESet "ring" "rotation.x" (VNum (- Math_PI / of_Z 2)%js);
    ESet "ring" "castShadow" (VBool true);
    ESet "ring" "receiveShadow" (VBool true);
    EDo "scene" "add" [VRef "ring"];
    EConst "edges" (VNew "THREE.EdgesGeometry" [VRef "geometry"]);
    EConst "edgesMaterial"
      (VNew "THREE.LineBasicMaterial" [VObj [("color", #0x333333); ("linewidth", #1)]]);
    EConst "edgesMesh" (VNew "THREE.LineSegments" [VRef "edges"; VRef "edgesMaterial"]);
    ESet "edgesMesh" "rotation.x" (VNum (- Math_PI / of_Z 2)%js);
    EDo "scene" "add" [VRef "edgesMesh"] ].

(** Lines 94-126: camera position, orbit controls, helpers, the first
    [animate()] call and the resize listener. *)
Definition setup_controls (bore : num) : list Effect :=
  [ EDo "camera.position" "set"
      [VNum (bore * dec 15 10)%js; VNum (bore * dec 15 10)%js; VNum (bore * dec 15 10)%js];
    EDo "camera" "lookAt" [#0; #0; #0];
    EConst "controls" (VNew "THREE.OrbitControls" [VRef "camera"; VField "renderer" "domElement"]);
    ESet "controls" "enableDamping" (VBool true);
    ESet "controls" "dampingFactor" (VNum (dec 5 100));
    ESet "controls" "screenSpacePanning" (VBool false);
    ESet "controls" "minDistance" (VNum (bore / of_Z 2)%js);
    ESet "controls" "maxDistance" (VNum (bore * of_Z 5)%js);
    EConst "gridHelper" (VNew "THREE.GridHelper" [VNum (bore * of_Z 2)%js; #20; #0x888888; #0xcccccc]);
    EDo "scene" "add" [VRef "gridHelper"];
    EConst "axesHelper" (VNew "THREE.AxesHelper" [VNum bore]);
    EDo "scene" "add" [VRef "axesHelper"] ]
  ++ animate_body
  ++ [ EDo "window" "addEventListener" [VStr "resize"; VHandler onResize] ].

(** Lines 129-146: the dimensions overlay. *)
Definition info_overlay (partNumber : string) (bore width thickness : num) (waves : Z)
  : list Effect :=
  [ EConst "infoDiv" (VCall "document" "createElement" [VStr "div"]);
    ESet "infoDiv" "style.position" (VStr "absolute");
    ESet "infoDiv" "style.top" (VStr "10px");
    ESet "infoDiv" "style.left" (VStr "10px");
    ESet "infoDiv" "style.background" (VStr "rgba(255,255,255,0.9)");
    ESet "infoDiv" "style.padding" (VStr "10px");
    ESet "infoDiv" "style.borderRadius" (VStr "5px");
    ESet "infoDiv" "style.fontFamily" (VStr "Arial, sans-serif");
    ESet "infoDiv" "style.fontSize" (VStr "12px");
    ESet "infoDiv" "innerHTML"
      (VTemplate [ PStr (indent 8 "<strong>"); PStr partNumber; PStr "</strong><br>";
                   PStr (indent 8 "Bore: "); PNum bore; PStr "mm<br>";
                   PStr (indent 8 "Width: "); PNum width; PStr "mm<br>";
                   PStr (indent 8 "Thickness: "); PNum thickness; PStr "mm<br>";
                   PStr (indent 8 "Waves: "); PNum (of_Z waves);
                   PStr (indent 4 "") ]);
    ESet "container" "style.position" (VStr "relative");
    EDo "container" "appendChild" [VRef "infoDiv"] ].

(** The returned handle bundle (lines 149-163). *)
Definition handle_bundle (partNumber : string) : Value :=
  VObj [ ("scene", VRef "scene");
         ("camera", VRef "camera");
         ("renderer", VRef "renderer");
         ("controls", VRef "controls");
         ("exportSTL", VFun (exportSTL partNumber)) ].

(** The function returns its value together with the statements it ran.
    An omitted (undefined) [thickness] or [waves] takes its default from the
    signature.  [waves] is a count: it is taken as an integer, negative
    values included (the loop then runs no iteration). *)
Definition create3DRingViewer (doc : Document) (containerId partNumber : string)
    (bore width : num) (thickness_arg : option num) (waves_arg : option Z)
  : Value * list Effect :=
  let thickness := default default_thickness thickness_arg in
  let waves := default default_waves waves_arg in
  match getElementById doc containerId with
  | None => (VUndefined, [])
  | Some container =>
      (handle_bundle partNumber,
       setup_scene container
       ++ build_shape bore thickness waves
       ++ build_mesh width
       ++ setup_controls bore
       ++ info_overlay partNumber bore width thickness waves)
  end.

(** ** generateRing3D (lines 167-184) *)

(** [now] is what [Date.now()] returns.  The result is the markup and the
    statements run: one timer, whose callback is [initViewer]. *)
Definition generateRing3D (now : Z) (partNumber : string) (bore width : num)
  : string * list Effect :=
  let containerId := ("ring3d-" ++ string_of_Z now)%string in
  let html :=
   (indent 8 ("<div id=" ++ dq ++ containerId ++ dq ++ " style=" ++ dq
              ++ "width: 100%; height: 400px; background: #f8f9fa; border-radius: 8px; margin: 20px 0;"
              ++ dq ++ ">")
    ++ indent 12 ("<div style=" ++ dq
                  ++ "text-align: center; padding: 180px 20px; color: #666;" ++ dq ++ ">")
    ++ indent 16 ("<i class=" ++ dq ++ "fas fa-cube fa-3x mb-3" ++ dq ++ "></i><br>")
    ++ indent 16 "Loading 3D Model..."
    ++ indent 12 "</div>"
    ++ indent 8 "</div>"
    ++ indent 4 "")%string in
  (html,
   [ EDo "window" "setTimeout"
       [VFun (initViewer containerId partNumber bore width); #100] ]).

(** ** Running a closure *)

(** [call_closure doc c] calls [c] with no argument on the page [doc].  The
    timer's arrow function has a block body: it runs the viewer with four
    arguments and returns nothing. *)
Definition call_closure (doc : Document) (c : Closure) : Value * list Effect :=
  match c with
  | animate => (VUndefined, animate_body)
  | exportSTL partNumber => (VUndefined, exportSTL_body partNumber)
  | initViewer containerId partNumber bore width =>
      (VUndefined,
       snd (create3DRingViewer doc containerId partNumber bore width None None))
  end.

(** ** Observations on a run *)

(** The radius of the hole: the third argument of [holePath.absarc]. *)
Definition absarc_radius (e : Effect) : option num :=
  match e with
  | EDo obj method [_; _; VNum r; _; _; _] =>
      if ((obj =? "holePath") && (method =? "absarc"))%string then Some r else None
  | _ => None
  end.

Fixpoint hole_radius (tr : list Effect) : option num :=
  match tr with
  | [] => None
  | e :: tr' =>
      match absarc_radius e with
      | Some r => Some r
      | None => hole_radius tr'
      end
  end.

(** The keys of an object literal, in order. *)
Definition keys (v : Value) : list string :=
  match v with
  | VObj fields => map fst fields
  | _ => []
  end.

(** The closures a run hands to [setTimeout], with their delays. *)
Definition timer_of (e : Effect) : option (Closure * num) :=
  match e with
  | EDo obj method [VFun c; VNum delay] =>
      if ((obj =? "window") && (method =? "setTimeout"))%string
      then Some (c, delay) else None
  | _ => None
  end.

Fixpoint timers (tr : list Effect) : list (Closure * num) :=
  match tr with
  | [] => []
  | e :: tr' =>
      match timer_of e with
      | Some t => t :: timers tr'
      | None => timers tr'
      end
  end.

(** The first result that [f] gives on a statement of the run. *)
Fixpoint find_map {A} (f : Effect -> option A) (tr : list Effect) : option A :=
  match tr with
  | [] => None
  | e :: tr' =>
      match f e with
      | Some a => Some a
      | None => find_map f tr'
      end
  end.


(** The value of the first assignment [obj.prop = v]. *)
Definition assigned (obj prop : string) : list Effect -> option Value :=
  find_map (fun e =>
    match e with
    | ESet o p v => if ((o =? obj) && (p =? prop))%string then Some v else None
    | _ => None
    end).

(** The value bound by [const name = v]. *)
Definition const_value (name : string) : list Effect -> option Value :=
  find_map (fun e =>
    match e with
    | EConst n v => if (n =? name)%string then Some v else None
    | _ => None
    end).

(** The assignments and calls of a run whose target is [obj]. *)
Definition targets (obj : string) (e : Effect) : bool :=
  match e with
  | EConst _ _ => false
  | ESet o _ _ => (o =? obj)%string
  | EDo o _ _ => (o =? obj)%string
  end.

Definition effects_on (obj : string) (tr : list Effect) : list Effect :=
  filter (targets obj) tr.



(** The container that a timer's callback will look up. *)
Definition viewer_target (t : Closure * num) : option string :=
  match fst t with
  | initViewer containerId _ _ _ => Some containerId
  | _ => None
  end.

(** ** Animation frames *)

(** The callbacks a run hands to [requestAnimationFrame]. *)
Definition frame_request_of (e : Effect) : option Closure :=
  match e with
  | EDo obj method [VFun c] =>
      if ((obj =? "window") && (method =? "requestAnimationFrame"))%string
      then Some c else None
  | _ => None
  end.

Fixpoint frame_requests (tr : list Effect) : list Closure :=
  match tr with
  | [] => []
  | e :: tr' =>
      match frame_request_of e with
      | Some c => c :: frame_requests tr'
      | None => frame_requests tr'
      end
  end.

(** One animation frame of the browser: every pending callback is called
    once, in order; what they request is pending for the next frame. *)
Definition run_frame (doc : Document) (pending : list Closure) : list Effect :=
  flat_map (fun c => snd (call_closure doc c)) pending.

(** [run_frames doc n pending] is the statements of [n] successive frames
    and the callbacks pending after them. *)
Fixpoint run_frames (doc : Document) (n : nat) (pending : list Closure)
  : list Effect * list Closure :=
  match n with
  | O => ([], pending)
  | S n' =>
      let tr := run_frame doc pending in
      let '(tr', pending') := run_frames doc n' (frame_requests tr) in
      (tr ++ tr', pending')
  end.

(** ** The two statements that the code does not meet *)

(** The outline closes on itself: the point of index [W] is the point of
    index 0. *)
Definition closes_loop (r : num) (W : Z) : Prop :=
  nth_error (outline (outer_edge r W)) (Z.to_nat W)
  = nth_error (outline (outer_edge r W)) 0.

(** The radius of the hole is half the bore. *)
Definition hole_is_half_bore (tr : list Effect) (bore : num) : Prop :=
  hole_radius tr = Some (bore / of_Z 2)%js.

(** ** The markup's id attribute *)

(** [s] without its first [n] characters. *)
Fixpoint skip (n : nat) (s : string) : string :=
  match n, s with
  | S n', String _ s' => skip n' s'
  | _, _ => s
  end.

(** The rest of [s] after the first occurrence of [pat]. *)
Fixpoint after (pat s : string) : option string :=
  if String.prefix pat s
  then Some (skip (String.length pat) s)
  else match s with
       | EmptyString => None
       | String _ s' => after pat s'
       end.

(** The text of [s] before its first double quote. *)
Fixpoint until_quote (s : string) : option string :=
  match s with
  | EmptyString => None
  | String c s' =>
      if Ascii.eqb c (Ascii.ascii_of_nat 34) then Some EmptyString
      else option_map (String c) (until_quote s')
  end.

(** The value of the first [id] attribute of a markup. *)
Definition id_attribute (html : string) : option string :=
  match after ("id=" ++ dq)%string html with
  | Some rest => until_quote rest
  | None => None
  end.

End Program.

Arguments Piece num : clear implicits.
Arguments Closure num : clear implicits.
Arguments Value num : clear implicits.
Arguments Effect num : clear implicits.
Arguments Element num : clear implicits.
Arguments Document num : clear implicits.

(** ** JavaScript numbers *)

(** IEEE binary64.  ECMAScript leaves [Math.sin] and [Math.cos]
    implementation-approximated, so they are taken as given.  [float_of_Z]
    is exact on the integers of magnitude up to 2^53, which covers every
    literal and loop counter of the source. *)
Definition float_of_Z (z : Z) : float :=
  match z with
  | Z0 => 0%float
  | Zpos p => PrimFloat.of_uint63 (Uint63.of_Z (Zpos p))
  | Zneg p => PrimFloat.opp (PrimFloat.of_uint63 (Uint63.of_Z (Zpos p)))
  end.

Definition binary64_number (fsin fcos : float -> float) : JSNumber float := {|
  of_Z := float_of_Z;
  add := PrimFloat.add;
  sub := PrimFloat.sub;
  mul := PrimFloat.mul;
  div := PrimFloat.div;
  opp := PrimFloat.opp;
  Math_PI := 0x1.921fb54442d18p+1%float;
  Math_sin := fsin;
  Math_cos := fcos
|}.

(** A stand-in for an implementation's sine and cosine in the examples:
    the first terms of their series. *)
Definition series_sin (x : float) : float := (x - x * x * x / 6)%float.
Definition series_cos (x : float) : float := (1 - x * x / 2)%float.

(** A page whose only element is [id], of the given size. *)
Definition page_with {num} (id : string) (w h : num) : Document num :=
  {| getElementById := fun s =>
       if (s =? id)%string then Some {| clientWidth := w; clientHeight := h |} else None |}.

(** The values that [Math.sin] and [Math.cos] return at the arguments of
    the first and of the last sample of the default ring, 0, 32 and the
    double nearest to 2 pi: the correctly rounded ones, as V8 and glibc
    compute them.  The examples that use these functions take no other
    argument; elsewhere they answer NaN. *)
Definition Math_sin_ref (x : float) : float :=
  if PrimFloat.is_zero x then x
  else if (x =? 32)%float then 0x1.1a54991426566p-1%float
  else if (x =? 0x1.921fb54442d18p+2)%float then (- 0x1.1a62633145c07p-52)%float
  else nan.

Definition Math_cos_ref (x : float) : float :=
  if PrimFloat.is_zero x then 1%float
  else if (x =? 0x1.921fb54442d18p+2)%float then 1%float
  else nan.

(** The number models of the examples. *)
Definition js_series : JSNumber float := binary64_number series_sin series_cos.
Definition js_ref : JSNumber float := binary64_number Math_sin_ref Math_cos_ref.

(** The page of the examples: one container, 800 by 400. *)
Definition ring_element : Element float :=
  {| clientWidth := 800%float; clientHeight := 400%float |}.
Definition ring_page : Document float := page_with "ring" 800%float 400%float.

(** ** Checking the angles of a sweep *)





(** * Facts for every number model *)

Section ProgramFacts.

Context {num : Type} `{JSNumber num}.

(** The combinator is the source's loop: test, body, increment. *)
Lemma for_le_unfold (lo hi : Z) (body : Z -> list (Effect num)) :
  for_le lo hi body =
  if lo <=? hi then body lo ++ for_le (lo + 1) hi body else [].
Proof.
  unfold for_le. destruct (Z.leb_spec lo hi) as [Hle | Hgt].
  - replace (Z.to_nat (hi + 1 - lo)) with (S (Z.to_nat (hi + 1 - (lo + 1)))) by lia.
    reflexivity.
  - replace (Z.to_nat (hi + 1 - lo)) with O by lia. reflexivity.
Qed.

Lemma outline_app (a b : list (Effect num)) :
  outline (a ++ b) = outline a ++ outline b.
Proof.
  induction a as [| e a IH]; [reflexivity |].
  simpl. destruct (shape_point e); simpl; now rewrite IH.
Qed.

Lemma outline_edge_step (r : num) (waves i : Z) :
  outline (edge_step r waves i) = [point r waves i].
Proof.
  unfold edge_step, point. destruct (i =? 0); reflexivity.
Qed.

Lemma outline_for_steps (r : num) (waves : Z) (n : nat) (i : Z) :
  outline (for_steps n i (edge_step r waves)) =
  map (fun k => point r waves (i + Z.of_nat k)) (seq 0 n).
Proof.
  revert i. induction n as [| n IH]; intros i; [reflexivity |].
  cbn [for_steps]. rewrite outline_app, outline_edge_step, IH.
  cbn [seq map app]. rewrite Z.add_0_r. f_equal.
  rewrite <- seq_shift, map_map. apply map_ext. intros k. f_equal. lia.
Qed.

(** The outline of the outer edge: the points of [i = 0 .. waves]. *)
Lemma outline_outer_edge (r : num) (waves : Z) :
  outline (outer_edge r waves) =
  map (fun k => point r waves (Z.of_nat k)) (seq 0 (Z.to_nat (waves + 1))).
Proof.
  unfold outer_edge, for_le. rewrite outline_for_steps.
  replace (waves + 1 - 0) with (waves + 1) by lia. reflexivity.
Qed.

Lemma nth_outline_outer_edge (r : num) (waves i : Z) :
  0 <= i <= waves ->
  nth_error (outline (outer_edge r waves)) (Z.to_nat i) = Some (point r waves i).
Proof.
  intros Hi. rewrite outline_outer_edge.
  rewrite nth_error_map, nth_error_seq.
  destruct (Nat.ltb_spec (Z.to_nat i) (Z.to_nat (waves + 1))) as [_ | Hge]; [| lia].
  cbn. now rewrite Z2Nat.id by lia.
Qed.

(** Only the outer edge draws on the shape. *)
Lemma outline_viewer_trace (container : Element num) (partNumber : string)
    (bore width thickness : num) (waves : Z) :
  outline (setup_scene container
           ++ build_shape bore thickness waves
           ++ build_mesh width
           ++ setup_controls bore
           ++ info_overlay partNumber bore width thickness waves)
  = outline (outer_edge (outerRadius bore) waves).
Proof.
  unfold build_shape. rewrite !outline_app.
  change (outline (setup_scene container)) with (@nil (num * num)).
  change (outline (build_mesh width)) with (@nil (num * num)).
  change (outline (setup_controls bore)) with (@nil (num * num)).
  change (outline (info_overlay partNumber bore width thickness waves))
    with (@nil (num * num)).
  cbn. now rewrite !app_nil_r.
Qed.

Lemma hole_radius_app (a b : list (Effect num)) :
  hole_radius (a ++ b) =
  match hole_radius a with
  | Some r => Some r
  | None => hole_radius b
  end.
Proof.
  induction a as [| e a IH]; [reflexivity |].
  simpl. destruct (absarc_radius e); [reflexivity | exact IH].
Qed.

Lemma hole_radius_for_steps (r : num) (waves : Z) (n : nat) (i : Z) :
  hole_radius (for_steps n i (edge_step r waves)) = None.
Proof.
  revert i. induction n as [| n IH]; intros i; [reflexivity |].
  cbn [for_steps]. rewrite hole_radius_app, IH.
  unfold edge_step, point. destruct (i =? 0); reflexivity.
Qed.

(** The hole of the profile built by a run has radius [bore / 2 - thickness]. *)
Lemma hole_radius_viewer (doc : Document num) (containerId partNumber : string)
    (bore width : num) (thickness_arg : option num) (waves_arg : option Z)
    (container : Element num) :
  getElementById doc containerId = Some container ->
  hole_radius
    (snd (create3DRingViewer doc containerId partNumber bore width thickness_arg waves_arg))
  = Some (innerRadius bore (default default_thickness thickness_arg)).
Proof.
  intros Hc. unfold create3DRingViewer. rewrite Hc. cbn [snd].
  rewrite hole_radius_app.
  change (hole_radius (setup_scene container)) with (@None num).
  cbv beta iota.
  rewrite hole_radius_app. unfold build_shape.
  rewrite (hole_radius_app [_]). cbn [hole_radius absarc_radius].
  rewrite hole_radius_app. unfold outer_edge, for_le.
  rewrite hole_radius_for_steps. reflexivity.
Qed.

Lemma outline_viewer (doc : Document num) (containerId partNumber : string)
    (bore width : num) (thickness_arg : option num) (waves_arg : option Z)
    (container : Element num) :
  getElementById doc containerId = Some container ->
  outline
    (snd (create3DRingViewer doc containerId partNumber bore width thickness_arg waves_arg))
  = outline (outer_edge (outerRadius bore) (default default_waves waves_arg)).
Proof.
  intros Hc. unfold create3DRingViewer. rewrite Hc. cbn [snd].
  apply outline_viewer_trace.
Qed.

Ltac in_trace :=
  repeat (apply in_or_app;
          first [ left; solve [ cbn; tauto ] | right ]);
  try solve [ cbn; tauto ].

(** C2. For every wave count W >= 1 and every base radius (so also every
    R > 0), the sampling of the perturbed boundary hands exactly W + 1
    points to the shape. *)
Theorem outer_edge_has_waves_plus_one_points (r : num) (W : Z) :
  1 <= W ->
  Z.of_nat (List.length (outline (outer_edge r W))) = W + 1.
Proof.
  intros HW. rewrite outline_outer_edge, length_map, length_seq. lia.
Qed.

(** C5. The point sequence is a function of the base radius R and the wave
    count W alone: two runs of the viewer on any two pages, container ids,
    part numbers, widths and wall thicknesses draw the same sequence as soon
    as their bores give the same radius R and their wave counts agree, and
    that sequence is the one the sampling loop yields for (R, W). *)
Theorem outline_is_a_function_of_radius_and_waves
    (r : num) (W : Z)
    (doc1 doc2 : Document num) (id1 id2 pn1 pn2 : string)
    (bore1 bore2 width1 width2 : num) (th1 th2 : option num)
    (c1 c2 : Element num) :
  getElementById doc1 id1 = Some c1 ->
  getElementById doc2 id2 = Some c2 ->
  outerRadius bore1 = r ->
  outerRadius bore2 = r ->
  let run1 := create3DRingViewer doc1 id1 pn1 bore1 width1 th1 (Some W) in
  let run2 := create3DRingViewer doc2 id2 pn2 bore2 width2 th2 (Some W) in
  outline (snd run1) = outline (outer_edge r W) /\
  outline (snd run2) = outline (snd run1).
Proof.
  intros H1 H2 Hr1 Hr2 run1 run2. subst run1 run2.
  rewrite (outline_viewer _ _ _ _ _ _ _ _ H1), (outline_viewer _ _ _ _ _ _ _ _ H2).
  cbn [default]. rewrite Hr1, Hr2. split; reflexivity.
Qed.

(** C7. When the lookup of the container yields null the function returns
    at once: its value is undefined and it has run no statement, so nothing
    of the scene, the geometry or the page was built.  That check is the
    only way out without a bundle: an undefined result implies that the
    lookup yielded null. *)
Theorem missing_container_returns_undefined
    (doc : Document num) (containerId partNumber : string)
    (bore width : num) (thickness : option num) (waves : option Z) :
  (getElementById doc containerId = None ->
   create3DRingViewer doc containerId partNumber bore width thickness waves
   = (VUndefined, [])) /\
  (fst (create3DRingViewer doc containerId partNumber bore width thickness waves)
   = VUndefined ->
   getElementById doc containerId = None).
Proof.
  unfold create3DRingViewer. split.
  - intros ->. reflexivity.
  - destruct (getElementById doc containerId); [discriminate | reflexivity].
Qed.

(** C8. Whenever the container exists the function returns an object with
    exactly the keys scene, camera, renderer, controls and exportSTL; the
    first four refer to the scene, camera, renderer and orbit controls the
    run has constructed, and exportSTL is the export action for the part. *)
Theorem existing_container_returns_handle_bundle
    (doc : Document num) (containerId partNumber : string)
    (bore width : num) (thickness : option num) (waves : option Z)
    (container : Element num) :
  getElementById doc containerId = Some container ->
  let run := create3DRingViewer doc containerId partNumber bore width thickness waves in
  fst run = VObj [ ("scene", VRef "scene"); ("camera", VRef "camera");
                   ("renderer", VRef "renderer"); ("controls", VRef "controls");
                   ("exportSTL", VFun (exportSTL partNumber)) ] /\
  keys (fst run) = ["scene"; "camera"; "renderer"; "controls"; "exportSTL"] /\
  In (EConst "scene" (VNew "THREE.Scene" [])) (snd run) /\
  In (EConst "camera"
        (VNew "THREE.PerspectiveCamera"
           [VNum (of_Z 45); VNum (clientWidth container / clientHeight container)%js;
            VNum (dec 1 10); VNum (of_Z 1000)])) (snd run) /\
  In (EConst "renderer" (VNew "THREE.WebGLRenderer" [VObj [("antialias", VBool true)]]))
     (snd run) /\
  In (EConst "controls"
        (VNew "THREE.OrbitControls" [VRef "camera"; VField "renderer" "domElement"]))
     (snd run) /\
  call_closure doc (exportSTL partNumber) = (VUndefined, exportSTL_body partNumber).
Proof.
  intros Hc run. subst run. unfold create3DRingViewer. rewrite Hc.
  cbn [fst snd]. repeat split; in_trace.
Qed.

Lemma for_steps_lineTo (r : num) (waves : Z) (n : nat) (i : Z) :
  0 < i ->
  for_steps n i (edge_step r waves) =
  map (fun k => EDo "shape" "lineTo"
                  [VNum (fst (point r waves (i + Z.of_nat k)));
                   VNum (snd (point r waves (i + Z.of_nat k)))])
      (seq 0 n).
Proof.
  revert i. induction n as [| n IH]; intros i Hi; [reflexivity |].
  cbn [for_steps seq map]. rewrite IH by lia. rewrite Z.add_0_r.
  unfold edge_step at 1. destruct (Z.eqb_spec i 0) as [-> | _]; [lia |].
  cbn. f_equal. rewrite <- seq_shift, map_map. apply map_ext.
  intros k. now replace (i + 1 + Z.of_nat k) with (i + Z.of_nat (S k)) by lia.
Qed.

(** X1. The edge is one [moveTo] followed by [lineTo]s: for W >= 0 the
    point of index 0 is moved to and the points of index 1 .. W are joined
    to it in the order of their indices. *)
Lemma outer_edge_commands (r : num) (waves : Z) :
  0 <= waves ->
  outer_edge r waves =
  EDo "shape" "moveTo" [VNum (fst (point r waves 0)); VNum (snd (point r waves 0))]
  :: map (fun k => EDo "shape" "lineTo"
                     [VNum (fst (point r waves (1 + Z.of_nat k)));
                      VNum (snd (point r waves (1 + Z.of_nat k)))])
         (seq 0 (Z.to_nat waves)).
Proof.
  intros Hw. unfold outer_edge, for_le.
  replace (Z.to_nat (waves + 1 - 0)) with (S (Z.to_nat waves)) by lia.
  cbn [for_steps]. rewrite for_steps_lineTo by lia. reflexivity.
Qed.

(** C9. For every part number, bore and width, generateRing3D sets one timer
    of 100 ms whose callback calls create3DRingViewer with four arguments;
    the call runs as with the wall thickness 0.203 and the wave count 16 of
    the signature's defaults: when the container is in the page, the hole
    has radius bore / 2 - 0.203 and the edge has 17 points. *)
Theorem generateRing3D_uses_default_thickness_and_waves
    (now : Z) (partNumber : string) (bore width : num) (doc : Document num) :
  let containerId := ("ring3d-" ++ string_of_Z now)%string in
  let callback := initViewer containerId partNumber bore width in
  timers (snd (generateRing3D now partNumber bore width)) = [(callback, of_Z 100)] /\
  snd (call_closure doc callback)
  = snd (create3DRingViewer doc containerId partNumber bore width
           (Some (dec 203 1000)) (Some 16)) /\
  (forall container : Element num,
     getElementById doc containerId = Some container ->
     hole_radius (snd (call_closure doc callback))
     = Some (outerRadius bore - dec 203 1000)%js /\
     List.length (outline (snd (call_closure doc callback))) = 17%nat).
Proof.
  intros containerId callback. subst callback.
  split; [reflexivity |]. split; [reflexivity |].
  intros container Hc. cbn [call_closure snd]. split.
  - now rewrite (hole_radius_viewer _ _ _ _ _ _ _ _ Hc).
  - rewrite (outline_viewer _ _ _ _ _ _ _ _ Hc), outline_outer_edge.
    now rewrite length_map, length_seq.
Qed.

End ProgramFacts.

(** * The defaults in binary64 *)

Module Binary64Model.

Section AnySineAndCosine.

Variables fsin fcos : float -> float.

Let js : JSNumber float := binary64_number fsin fcos.

(** The quotient 203 / 1000 is the binary64 value of the literal 0.203. *)
Lemma default_thickness_binary64 :
  default_thickness (H := js) = 0x1.9fbe76c8b4396p-3%float.
Proof. reflexivity. Qed.

(** For bore 10 the default hole has radius 4.797, and that is not half
    the bore. *)
Lemma default_hole_radius_binary64 :
  innerRadius (H := js) 10%float (default_thickness (H := js))
  = 0x1.33020c49ba5e3p+2%float /\
  PrimFloat.eqb (innerRadius (H := js) 10%float (default_thickness (H := js)))
                (outerRadius (H := js) 10%float) = false.
Proof. split; reflexivity. Qed.

(** The default ring has 17 points whatever the sine and cosine are. *)
Lemma default_point_count_binary64 (doc : Document float) (c : Element float) :
  getElementById doc "ring" = Some c ->
  List.length
    (outline (snd (create3DRingViewer (H := js) doc "ring" "TR-10" 10%float 5%float None None)))
  = 17%nat.
Proof.
  intros Hc. rewrite (outline_viewer _ _ _ _ _ _ _ _ Hc), outline_outer_edge.
  now rewrite length_map, length_seq.
Qed.

End AnySineAndCosine.

End Binary64Model.

(** * Facts about whole runs *)

Section RunFacts.

Context {num : Type} `{JSNumber num}.

(** Every statement of the sampling loop is a [moveTo] or a [lineTo] of two
    numbers on the shape. *)
Lemma edge_step_draws (r : num) (waves i : Z) :
  exists m x y, edge_step r waves i = [EDo "shape" m [VNum x; VNum y]].
Proof.
  unfold edge_step. destruct (point r waves i) as [x y].
  destruct (i =? 0); eauto.
Qed.

Lemma for_steps_Forall (P : Effect num -> Prop) (r : num) (waves : Z) :
  (forall m x y, P (EDo "shape" m [VNum x; VNum y])) ->
  forall n i, Forall P (for_steps n i (edge_step r waves)).
Proof.
  intros HP n. induction n as [| n IH]; intros i; [constructor |].
  cbn [for_steps]. destruct (edge_step_draws r waves i) as (m & x & y & ->).
  constructor; [apply HP | apply IH].
Qed.

Lemma outer_edge_Forall (P : Effect num -> Prop) (r : num) (waves : Z) :
  (forall m x y, P (EDo "shape" m [VNum x; VNum y])) ->
  Forall P (outer_edge r waves).
Proof. intros HP. now apply for_steps_Forall. Qed.

Lemma find_map_app {A} (f : Effect num -> option A) (a b : list (Effect num)) :
  find_map f (a ++ b) =
  match find_map f a with
  | Some x => Some x
  | None => find_map f b
  end.
Proof.
  induction a as [| e a IH]; [reflexivity |].
  cbn. destruct (f e); [reflexivity | exact IH].
Qed.

Lemma find_map_none {A} (f : Effect num -> option A) (tr : list (Effect num)) :
  Forall (fun e => f e = None) tr -> find_map f tr = None.
Proof.
  induction 1 as [| e tr He _ IH]; [reflexivity |]. cbn. now rewrite He.
Qed.

Lemma effects_on_none (obj : string) (tr : list (Effect num)) :
  Forall (fun e => targets obj e = false) tr -> effects_on obj tr = [].
Proof.
  induction 1 as [| e tr He _ IH]; [reflexivity |].
  unfold effects_on in *. cbn. now rewrite He.
Qed.


Lemma frame_requests_app (a b : list (Effect num)) :
  frame_requests (a ++ b) = frame_requests a ++ frame_requests b.
Proof.
  induction a as [| e a IH]; [reflexivity |].
  cbn. destruct (frame_request_of e); cbn; now rewrite IH.
Qed.


Lemma frame_requests_none (tr : list (Effect num)) :
  Forall (fun e => frame_request_of e = None) tr -> frame_requests tr = [].
Proof.
  induction 1 as [| e tr He _ IH]; [reflexivity |]. cbn. now rewrite He.
Qed.

(** The statements of a run on an existing container. *)
Lemma viewer_trace (doc : Document num) (containerId partNumber : string)
    (bore width : num) (thickness : option num) (waves : option Z)
    (container : Element num) :
  getElementById doc containerId = Some container ->
  snd (create3DRingViewer doc containerId partNumber bore width thickness waves)
  = setup_scene container
    ++ build_shape bore (default default_thickness thickness) (default default_waves waves)
    ++ build_mesh width
    ++ setup_controls bore
    ++ info_overlay partNumber bore width
         (default default_thickness thickness) (default default_waves waves).
Proof.
  intros Hc. unfold create3DRingViewer. now rewrite Hc.
Qed.

(** X2. A wave count below zero is not rejected: the loop runs no iteration, so
    the shape gets no outer edge, yet the hole is cut and the bundle is
    returned.  For any integer W the edge has max(0, W + 1) points. *)
Theorem negative_waves_draw_no_edge
    (doc : Document num) (containerId partNumber : string)
    (bore width thickness : num) (W : Z) (container : Element num) :
  getElementById doc containerId = Some container ->
  W < 0 ->
  let run := create3DRingViewer doc containerId partNumber bore width
               (Some thickness) (Some W) in
  outline (snd run) = [] /\
  hole_radius (snd run) = Some (innerRadius bore thickness) /\
  fst run = handle_bundle partNumber /\
  (forall (r : num) (W' : Z),
     List.length (outline (outer_edge r W')) = Z.to_nat (Z.max 0 (W' + 1))).
Proof.
  intros Hc HW run. subst run. repeat split.
  - rewrite (outline_viewer _ _ _ _ _ _ _ _ Hc), outline_outer_edge.
    cbn [default]. now replace (Z.to_nat (W + 1)) with O by lia.
  - now rewrite (hole_radius_viewer _ _ _ _ _ _ _ _ Hc).
  - unfold create3DRingViewer. now rewrite Hc.
  - intros r W'. rewrite outline_outer_edge, length_map, length_seq. lia.
Qed.

(** X3. The only statements of a run that touch the container are, in order:
    appending the renderer's canvas, setting its position to relative and
    appending the overlay.  Nothing is removed from it or replaced in it. *)
Theorem container_only_gains_canvas_and_overlay
    (doc : Document num) (containerId partNumber : string)
    (bore width : num) (thickness : option num) (waves : option Z)
    (container : Element num) :
  getElementById doc containerId = Some container ->
  effects_on "container"
    (snd (create3DRingViewer doc containerId partNumber bore width thickness waves))
  = [ EDo "container" "appendChild" [VField "renderer" "domElement"];
      ESet "container" "style.position" (VStr "relative");
      EDo "container" "appendChild" [VRef "infoDiv"] ].
Proof.
  intros Hc. rewrite (viewer_trace _ _ _ _ _ _ _ _ Hc).
  unfold effects_on, build_shape. rewrite !filter_app.
  change (filter (targets "container") (outer_edge ?r ?w))
    with (effects_on "container" (outer_edge r w)).
  rewrite effects_on_none by (apply outer_edge_Forall; reflexivity).
  reflexivity.
Qed.

(** X4. After a run exactly one frame callback, [animate], is pending; each
    frame calls it once (one controls update, one render) and leaves exactly
    one [animate] pending again, whatever the page has become: the loop
    neither stops nor multiplies. *)
Theorem animation_keeps_one_pending_frame
    (doc : Document num) (containerId partNumber : string)
    (bore width : num) (thickness : option num) (waves : option Z)
    (container : Element num) :
  getElementById doc containerId = Some container ->
  let run := create3DRingViewer doc containerId partNumber bore width thickness waves in
  frame_requests (snd run) = [animate] /\
  forall (later : Document num) (n : nat),
    run_frames later n (frame_requests (snd run))
    = (List.concat (repeat animate_body n), [animate]).
Proof.
  intros Hc run. subst run.
  assert (Hreq : frame_requests
            (snd (create3DRingViewer doc containerId partNumber bore width thickness waves))
          = [animate]).
  { rewrite (viewer_trace _ _ _ _ _ _ _ _ Hc).
    unfold build_shape. rewrite !frame_requests_app.
    rewrite (frame_requests_none (outer_edge _ _))
      by (apply outer_edge_Forall; reflexivity).
    reflexivity. }
  split; [exact Hreq |]. rewrite Hreq. intros later n.
  induction n as [| n IH]; [reflexivity |].
  cbn [run_frames]. unfold run_frame. cbn [flat_map call_closure snd].
  rewrite app_nil_r. change (frame_requests animate_body) with [@animate num].
  rewrite IH. reflexivity.
Qed.


(** X7. The overlay reports the dimensions the geometry was built with, the
    defaults included: the thickness it prints is the one subtracted from
    half the bore for the hole, and for W >= 0 the wave count it prints is
    one less than the number of points of the edge. *)
Theorem overlay_reports_the_dimensions_used
    (doc : Document num) (containerId partNumber : string)
    (bore width : num) (thickness : option num) (waves : option Z)
    (container : Element num) :
  getElementById doc containerId = Some container ->
  0 <= default default_waves waves ->
  let tr := snd (create3DRingViewer doc containerId partNumber bore width thickness waves) in
  let t := default default_thickness thickness in
  let W := default default_waves waves in
  assigned "infoDiv" "innerHTML" tr
  = Some (VTemplate
            [ PStr (indent 8 "<strong>"); PStr partNumber; PStr "</strong><br>";
              PStr (indent 8 "Bore: "); PNum bore; PStr "mm<br>";
              PStr (indent 8 "Width: "); PNum width; PStr "mm<br>";
              PStr (indent 8 "Thickness: "); PNum t; PStr "mm<br>";
              PStr (indent 8 "Waves: "); PNum (of_Z W); PStr (indent 4 "") ]) /\
  hole_radius tr = Some (outerRadius bore - t)%js /\
  Z.of_nat (List.length (outline tr)) = W + 1.
Proof.
  intros Hc HW tr t W. subst tr t W. repeat split.
  - rewrite (viewer_trace _ _ _ _ _ _ _ _ Hc).
    unfold assigned, build_shape. rewrite !find_map_app.
    rewrite (find_map_none _ (outer_edge _ _))
      by (apply outer_edge_Forall; reflexivity).
    reflexivity.
  - now rewrite (hole_radius_viewer _ _ _ _ _ _ _ _ Hc).
  - rewrite (outline_viewer _ _ _ _ _ _ _ _ Hc), outline_outer_edge.
    rewrite length_map, length_seq. lia.
Qed.

(** ** The container id *)

Lemma string_of_Z_inj (a b : Z) : string_of_Z a = string_of_Z b -> a = b.
Proof.
  unfold string_of_Z. intros Heq.
  assert (Hnorm : forall n : Z,
            DecimalString.NilZero.int_of_string
              (DecimalString.NilZero.string_of_int (Z.to_int n))
            = Some (Z.to_int n)).
  { intros n. apply DecimalString.NilZero.isi; destruct n; cbn; try discriminate;
      intros [= Hp]; now apply DecimalPos.Unsigned.to_uint_nonnil in Hp. }
  apply DecimalZ.to_int_inj.
  pose proof (Hnorm a) as Ha. rewrite Heq, Hnorm in Ha. now injection Ha.
Qed.

Lemma text_append_assoc (a b c : string) :
  ((a ++ b) ++ c = a ++ (b ++ c))%string.
Proof.
  induction a as [| x a IH]; cbn; [reflexivity | now rewrite IH].
Qed.

Lemma until_quote_app (d rest : string) :
  until_quote d = None ->
  until_quote (d ++ String (Ascii.ascii_of_nat 34) rest)%string = Some d.
Proof.
  induction d as [| c d IH]; cbn; [reflexivity |].
  destruct (Ascii.eqb c _); [intros [=] |].
  destruct (until_quote d); cbn; [intros [=] |]. intros _.
  change (Ascii.Ascii false true false false false true false false)
    with (Ascii.ascii_of_nat 34).
  now rewrite IH.
Qed.

Lemma uint_text_has_no_quote (d : Decimal.uint) :
  until_quote (DecimalString.NilEmpty.string_of_uint d) = None.
Proof.
  induction d; cbn; try rewrite IHd; reflexivity.
Qed.

Lemma string_of_Z_has_no_quote (n : Z) : until_quote (string_of_Z n) = None.
Proof.
  unfold string_of_Z, DecimalString.NilZero.string_of_int,
    DecimalString.NilZero.string_of_uint.
  destruct (Z.to_int n) as [d | d]; destruct d; cbn;
    try rewrite uint_text_has_no_quote; reflexivity.
Qed.

Lemma id_attribute_of_markup (now : Z) (partNumber : string) (bore width : num) :
  id_attribute (fst (generateRing3D now partNumber bore width))
  = Some ("ring3d-" ++ string_of_Z now)%string.
Proof.
  unfold generateRing3D. cbn [fst]. unfold id_attribute.
  pose proof (string_of_Z_has_no_quote now) as Hq.
  generalize dependent (string_of_Z now). intros d Hq.
  cbn. rewrite text_append_assoc. cbn [String.append].
  change (Ascii.Ascii false true false false false true false false)
    with (Ascii.ascii_of_nat 34).
  now rewrite (until_quote_app d _ Hq).
Qed.

(** X8. The id attribute of the returned markup is the container id that
    the one timer callback looks up, [ring3d-] followed by the decimal text
    of the time. *)
Theorem markup_id_is_the_callback_target
    (now : Z) (partNumber : string) (bore width : num) :
  let g := generateRing3D now partNumber bore width in
  let id := ("ring3d-" ++ string_of_Z now)%string in
  id_attribute (fst g) = Some id /\
  map viewer_target (timers (snd g)) = [Some id].
Proof.
  intros g id. subst g id. split; [apply id_attribute_of_markup | reflexivity].
Qed.

(** X9. Two calls get the same container id exactly when [Date.now()] gave them
    the same millisecond, whatever the parts are. *)
Theorem container_ids_collide_only_in_one_millisecond
    (now1 now2 : Z) (pn1 pn2 : string) (bore1 bore2 width1 width2 : num) :
  map viewer_target (timers (snd (generateRing3D now1 pn1 bore1 width1)))
  = map viewer_target (timers (snd (generateRing3D now2 pn2 bore2 width2)))
  <-> now1 = now2.
Proof.
  cbn. split.
  - intros [= Heq]. now apply string_of_Z_inj.
  - now intros ->.
Qed.

(** X10. When the page has no element under the markup's id at the time the
    timer fires, the callback does nothing and returns nothing: the viewer
    is silently not built. *)
Theorem callback_without_markup_does_nothing
    (now : Z) (partNumber : string) (bore width : num) (doc : Document num)
    (id : string) (callback : Closure num) (delay : num) :
  let g := generateRing3D now partNumber bore width in
  id_attribute (fst g) = Some id ->
  In (callback, delay) (timers (snd g)) ->
  getElementById doc id = None ->
  call_closure doc callback = (VUndefined, []).
Proof.
  intros g Hid Hin Hnone. subst g.
  rewrite id_attribute_of_markup in Hid. injection Hid as <-.
  cbn in Hin. destruct Hin as [[= <- <-] | []].
  cbn [call_closure]. unfold create3DRingViewer. now rewrite Hnone.
Qed.

End RunFacts.

(** * The sampled boundary, for every number model *)

Section BoundaryFacts.

Context {num : Type} `{JSNumber num}.

Lemma for_steps_moves_or_lines (r : num) (waves : Z) (n : nat) (i : Z) :
  Forall (fun e => exists x y,
            e = EDo "shape" "moveTo" [VNum x; VNum y] \/
            e = EDo "shape" "lineTo" [VNum x; VNum y])
         (for_steps n i (edge_step r waves)).
Proof.
  revert i. induction n as [| n IH]; intros i; [constructor |].
  cbn [for_steps]. unfold edge_step at 1. destruct (point r waves i) as [x y].
  destruct (i =? 0); constructor; eauto.
Qed.

Lemma effects_on_all (obj : string) (tr : list (Effect num)) :
  Forall (fun e => targets obj e = true) tr -> effects_on obj tr = tr.
Proof.
  induction 1 as [| e tr He _ IH]; [reflexivity |].
  unfold effects_on in *. cbn. now rewrite He, IH.
Qed.

(** The only calls of a run on the shape are those of the sampling loop. *)
Lemma shape_calls_of_run (doc : Document num) (containerId partNumber : string)
    (bore width : num) (thickness : option num) (waves : option Z)
    (container : Element num) :
  getElementById doc containerId = Some container ->
  effects_on "shape"
    (snd (create3DRingViewer doc containerId partNumber bore width thickness waves))
  = outer_edge (outerRadius bore) (default default_waves waves).
Proof.
  intros Hc. rewrite (viewer_trace _ _ _ _ _ _ _ _ Hc).
  unfold effects_on, build_shape. rewrite !filter_app.
  change (filter (targets "shape") (outer_edge ?r ?w))
    with (effects_on "shape" (outer_edge r w)).
  rewrite effects_on_all by (apply outer_edge_Forall; reflexivity).
  cbn. now rewrite !app_nil_r.
Qed.

(** C1. For every wave count W >= 1, every base radius R (so also every
    R > 0) and every index i in [0, W], the i-th point that the sampling
    hands to the shape is (cos(a) * rho, sin(a) * rho) for the angle
    a = (i / W) * pi * 2 and the perturbed radius rho = R + sin(i * 2) * 0.5:
    the polar-to-Cartesian image of the angle 2 pi i / W and the radius
    R + 0.5 sin(2 i), every operation being the number model's and taken in
    the order of the source. *)
Theorem boundary_point_is_polar_image (W : Z) (r : num) (i : Z) :
  1 <= W -> 0 <= i <= W ->
  let a := (of_Z i / of_Z W * Math_PI * of_Z 2)%js in
  let rho := (r + Math_sin (of_Z i * of_Z 2) * (of_Z 5 / of_Z 10))%js in
  nth_error (outline (outer_edge r W)) (Z.to_nat i)
  = Some (Math_cos a * rho, Math_sin a * rho)%js.
Proof.
  intros _ Hi a rho. subst a rho.
  now rewrite nth_outline_outer_edge by assumption.
Qed.

(** C4, as amended. For every wave count W >= 1 the sampled path is open:
    it starts at the sample of index 0, taken at the angle (0 / W) * pi * 2
    with the radius R + sin(0 * 2) * 0.5, and ends at the sample of index W,
    the last of its W + 1 points, taken at the angle (W / W) * pi * 2 with
    the radius R + sin(W * 2) * 0.5.  The loop only moves and draws lines,
    a run makes no other call on the shape, and the last point is the first
    exactly when those two samples are the same pair of numbers. *)
Theorem sampled_path_runs_from_first_to_last_sample (W : Z) (r : num) :
  1 <= W ->
  let sample := fun i : Z =>
    let a := (of_Z i / of_Z W * Math_PI * of_Z 2)%js in
    let rho := (r + Math_sin (of_Z i * of_Z 2) * (of_Z 5 / of_Z 10))%js in
    (Math_cos a * rho, Math_sin a * rho)%js in
  nth_error (outline (outer_edge r W)) 0 = Some (sample 0) /\
  nth_error (outline (outer_edge r W)) (Z.to_nat W) = Some (sample W) /\
  List.length (outline (outer_edge r W)) = S (Z.to_nat W) /\
  Forall (fun e => exists x y,
            e = EDo "shape" "moveTo" [VNum x; VNum y] \/
            e = EDo "shape" "lineTo" [VNum x; VNum y])
         (outer_edge r W) /\
  (forall (doc : Document num) (containerId partNumber : string)
          (bore width : num) (thickness : option num) (container : Element num),
     getElementById doc containerId = Some container ->
     effects_on "shape"
       (snd (create3DRingViewer doc containerId partNumber bore width thickness (Some W)))
     = outer_edge (bore / of_Z 2)%js W) /\
  (closes_loop r W <-> sample W = sample 0).
Proof.
  intros HW sample.
  assert (H0 : nth_error (outline (outer_edge r W)) 0 = Some (sample 0)).
  { change 0%nat with (Z.to_nat 0). now rewrite nth_outline_outer_edge by lia. }
  assert (HWth : nth_error (outline (outer_edge r W)) (Z.to_nat W) = Some (sample W)).
  { now rewrite nth_outline_outer_edge by lia. }
  split; [exact H0 |]. split; [exact HWth |]. split.
  { rewrite outline_outer_edge, length_map, length_seq. lia. }
  split; [apply for_steps_moves_or_lines |]. split.
  { intros doc containerId partNumber bore width thickness container Hc.
    now rewrite (shape_calls_of_run _ _ _ _ _ _ _ _ Hc). }
  unfold closes_loop. rewrite H0, HWth. split; congruence.
Qed.

(** C6, as amended. Half the bore is the base radius of the outer edge,
    not of the hole: for every bore b, wall thickness t and wave count W the
    point of index i in [0, W] is sampled at the radius
    b / 2 + sin(i * 2) * 0.5, and the hole of the profile has the radius
    b / 2 - t. *)
Theorem hole_radius_is_half_bore_minus_thickness
    (doc : Document num) (containerId partNumber : string)
    (b width t : num) (W : Z) (container : Element num) :
  getElementById doc containerId = Some container ->
  let run := create3DRingViewer doc containerId partNumber b width (Some t) (Some W) in
  hole_radius (snd run) = Some (b / of_Z 2 - t)%js /\
  forall i : Z, 0 <= i <= W ->
    let a := (of_Z i / of_Z W * Math_PI * of_Z 2)%js in
    let rho := (b / of_Z 2 + Math_sin (of_Z i * of_Z 2) * (of_Z 5 / of_Z 10))%js in
    nth_error (outline (snd run)) (Z.to_nat i) = Some (Math_cos a * rho, Math_sin a * rho)%js.
Proof.
  intros Hc run. subst run. split.
  - now rewrite (hole_radius_viewer _ _ _ _ _ _ _ _ Hc).
  - intros i Hi a rho. subst a rho.
    rewrite (outline_viewer _ _ _ _ _ _ _ _ Hc). cbn [default].
    now rewrite nth_outline_outer_edge by assumption.
Qed.

End BoundaryFacts.

(** * The claims in binary64 *)

Module Binary64Claims.

(** For the default ring only five values of the host's sine and cosine
    matter: with any sine and cosine that take them, the last point is not
    the first. *)
Lemma default_ring_open_for_any_host (fsin fcos : float -> float) :
  fsin 0%float = 0%float ->
  fcos 0%float = 1%float ->
  fsin 32%float = 0x1.1a54991426566p-1%float ->
  fsin 0x1.921fb54442d18p+2%float = (- 0x1.1a62633145c07p-52)%float ->
  fcos 0x1.921fb54442d18p+2%float = 1%float ->
  ~ closes_loop (H := binary64_number fsin fcos) 5%float 16.
Proof.
  intros Hs0 Hc0 Hs32 Hs2pi Hc2pi. unfold closes_loop.
  change 0%nat with (Z.to_nat 0).
  rewrite !(nth_outline_outer_edge (H := binary64_number fsin fcos)) by lia.
  vm_compute. rewrite Hs0, Hc0, Hs32, Hs2pi, Hc2pi. intros Heq.
  apply (f_equal (fun o : option (float * float) =>
                    match o with
                    | Some (x, _) => PrimFloat.Leibniz.eqb x 5%float
                    | None => false
                    end)) in Heq.
  vm_compute in Heq. discriminate Heq.
Qed.

(** C4 fails on the default ring: for bore 10, whose half is the base
    radius 5, and the default 16 waves the first point is (5, 0) and the
    last one is (5.275713340620845, -1.2921770911620615e-15). *)
Lemma default_ring_does_not_close :
  outerRadius (H := js_ref) 10%float = 5%float /\
  nth_error (outline (outer_edge (H := js_ref) 5%float 16)) 0 = Some (5, 0)%float /\
  nth_error (outline (outer_edge (H := js_ref) 5%float 16)) (Z.to_nat 16)
  = Some (0x1.51a5499142656p+2, - 0x1.7471d72414d4bp-50)%float /\
  ~ closes_loop (H := js_ref) 5%float 16.
Proof.
  split; [reflexivity |]. split; [reflexivity |]. split; [reflexivity |].
  unfold closes_loop. intros Heq. symmetry in Heq.
  apply (f_equal (fun o : option (float * float) =>
                    match o with
                    | Some (x, _) => PrimFloat.Leibniz.eqb x 5%float
                    | None => false
                    end)) in Heq.
  vm_compute in Heq. discriminate Heq.
Qed.

(** C6 fails on the default ring: for bore 10 and the default wall
    thickness 0.203 the hole has radius 4.797, not 5. *)
Lemma default_ring_hole_is_not_half_bore :
  let run := create3DRingViewer (H := js_series) ring_page "ring" "TR-10"
               10%float 5%float None None in
  hole_radius (snd run) = Some 0x1.33020c49ba5e3p+2%float /\
  ~ hole_is_half_bore (H := js_series) (snd run) 10%float.
Proof.
  intros run. subst run. split; [reflexivity |].
  unfold hole_is_half_bore. intros Heq.
  apply (f_equal (fun o : option float =>
                    match o with
                    | Some x => PrimFloat.Leibniz.eqb x 5%float
                    | None => false
                    end)) in Heq.
  vm_compute in Heq. discriminate Heq.
Qed.






End Binary64Claims.

(** * Edge cases of binary64 arithmetic *)

Module Binary64Edge.

Lemma mul_nan_l (x : float) : (nan * x)%float = nan.
Proof.
  apply Prim2SF_inj. rewrite mul_spec. reflexivity.
Qed.

Section AnySineAndCosine.

Variables fsin fcos : float -> float.

(** ECMAScript requires [Math.sin] and [Math.cos] to return NaN on NaN. *)
Hypothesis fsin_nan : fsin nan = nan.
Hypothesis fcos_nan : fcos nan = nan.

Let js : JSNumber float := binary64_number fsin fcos.

(** X15. A wave count of 0 is not rejected: the loop runs once with the angle
    0 / 0, which is NaN, and the one point handed to the shape is
    (NaN, NaN), whatever the bore is. *)
Theorem zero_waves_give_a_nan_point
    (doc : Document float) (containerId partNumber : string)
    (bore width : float) (thickness : option float) (container : Element float) :
  getElementById doc containerId = Some container ->
  outline
    (snd (create3DRingViewer (H := js) doc containerId partNumber bore width
            thickness (Some 0)))
  = [(nan, nan)].
Proof.
  intros Hc. rewrite (outline_viewer _ _ _ _ _ _ _ _ Hc), outline_outer_edge.
  cbn [default]. change (Z.to_nat (0 + 1)) with 1%nat.
  cbn [seq map Z.of_nat]. unfold point.
  assert (Ha : angle (H := js) 0 0 = nan) by reflexivity.
  rewrite Ha. cbn [Math_sin Math_cos mul js binary64_number].
  now rewrite fsin_nan, fcos_nan, !mul_nan_l.
Qed.

(** X16. A container of height 0 is not guarded against: whatever its width,
    the aspect ratio that the camera is built with is NaN or an infinity. *)
Theorem zero_height_container_gives_no_finite_aspect
    (doc : Document float) (containerId partNumber : string)
    (bore width : float) (thickness : option float) (waves : option Z)
    (container : Element float) :
  getElementById doc containerId = Some container ->
  clientHeight container = 0%float ->
  let tr := snd (create3DRingViewer (H := js) doc containerId partNumber bore width
                   thickness waves) in
  exists aspect : float,
    const_value "camera" tr
    = Some (VNew "THREE.PerspectiveCamera"
              [VNum 45%float; VNum aspect; VNum 0x1.999999999999ap-4%float;
               VNum 1000%float]) /\
    (Prim2SF aspect = S754_nan \/ exists s, Prim2SF aspect = S754_infinity s).
Proof.
  intros Hc Hh tr. subst tr. rewrite (viewer_trace _ _ _ _ _ _ _ _ Hc).
  exists (clientWidth container / clientHeight container)%float.
  split; [reflexivity |].
  rewrite Hh, div_spec.
  change (Prim2SF 0) with (S754_zero false).
  destruct (Prim2SF (clientWidth container)); cbn; eauto.
Qed.

End AnySineAndCosine.

End Binary64Edge.

(** * The theorems at concrete inputs *)

Module Witnesses.

Lemma boundary_point_is_polar_image_witness :
  nth_error (outline (outer_edge (H := js_ref) 5%float 16)) (Z.to_nat 16)
  = Some (0x1.51a5499142656p+2, - 0x1.7471d72414d4bp-50)%float.
Proof.
  exact (boundary_point_is_polar_image (H := js_ref) 16 5%float 16
           ltac:(lia) ltac:(lia)).
Defined.

Lemma outer_edge_has_waves_plus_one_points_witness :
  Z.of_nat (List.length (outline (outer_edge (H := js_series) 5%float 16))) = 16 + 1.
Proof.
  apply (outer_edge_has_waves_plus_one_points (H := js_series) 5%float 16). lia.
Defined.

Lemma sampled_path_runs_from_first_to_last_sample_witness :
  nth_error (outline (outer_edge (H := js_ref) 5%float 16)) 0 = Some (5, 0)%float /\
  nth_error (outline (outer_edge (H := js_ref) 5%float 16)) (Z.to_nat 16)
  = Some (0x1.51a5499142656p+2, - 0x1.7471d72414d4bp-50)%float /\
  List.length (outline (outer_edge (H := js_ref) 5%float 16)) = S (Z.to_nat 16).
Proof.
  pose proof (sampled_path_runs_from_first_to_last_sample (H := js_ref) 16 5%float
                ltac:(lia)) as (H0 & HW & Hlen & _).
  exact (conj H0 (conj HW Hlen)).
Defined.

Lemma outline_is_a_function_of_radius_and_waves_witness :
  let run1 := create3DRingViewer (H := js_series) ring_page "ring" "TR-10"
                10%float 5%float None (Some 16) in
  let run2 := create3DRingViewer (H := js_series) (page_with "other" 640%float 480%float)
                "other" "TR-10-W8" 10%float 8%float (Some 0x1.3333333333333p-2%float)
                (Some 16) in
  outline (snd run1) = outline (outer_edge (H := js_series) 5%float 16) /\
  outline (snd run2) = outline (snd run1).
Proof.
  apply (outline_is_a_function_of_radius_and_waves (H := js_series) 5%float 16
           ring_page (page_with "other" 640%float 480%float) "ring" "other"
           "TR-10" "TR-10-W8" 10%float 10%float 5%float 8%float
           None (Some 0x1.3333333333333p-2%float)
           ring_element {| clientWidth := 640%float; clientHeight := 480%float |});
    reflexivity.
Defined.

Lemma hole_radius_is_half_bore_minus_thickness_witness :
  hole_radius
    (snd (create3DRingViewer (H := js_series) ring_page "ring" "TR-10"
            10%float 5%float (Some 0x1.9fbe76c8b4396p-3%float) (Some 16)))
  = Some 0x1.33020c49ba5e3p+2%float.
Proof.
  exact (proj1 (hole_radius_is_half_bore_minus_thickness (H := js_series)
                  ring_page "ring" "TR-10" 10%float 5%float 0x1.9fbe76c8b4396p-3%float
                  16 ring_element eq_refl)).
Defined.

Lemma missing_container_returns_undefined_witness :
  create3DRingViewer (H := js_series) ring_page "absent" "TR-10" 10%float 5%float None None
  = (VUndefined, []).
Proof.
  apply (missing_container_returns_undefined (H := js_series)
           ring_page "absent" "TR-10" 10%float 5%float None None).
  reflexivity.
Defined.

Lemma existing_container_returns_handle_bundle_witness :
  keys (fst (create3DRingViewer (H := js_series) ring_page "ring" "TR-10"
               10%float 5%float None None))
  = ["scene"; "camera"; "renderer"; "controls"; "exportSTL"].
Proof.
  apply (existing_container_returns_handle_bundle (H := js_series)
           ring_page "ring" "TR-10" 10%float 5%float None None ring_element).
  reflexivity.
Defined.

Lemma generateRing3D_uses_default_thickness_and_waves_witness :
  let doc := page_with "ring3d-1700000000000" 800%float 400%float in
  let callback := initViewer "ring3d-1700000000000" "TR-10" 10%float 5%float in
  getElementById doc "ring3d-1700000000000" = Some ring_element /\
  hole_radius (snd (call_closure (H := js_series) doc callback))
  = Some 0x1.33020c49ba5e3p+2%float /\
  List.length (outline (snd (call_closure (H := js_series) doc callback))) = 17%nat.
Proof.
  intros doc callback. split; [reflexivity |].
  exact (proj2 (proj2 (generateRing3D_uses_default_thickness_and_waves (H := js_series)
                         1700000000000 "TR-10" 10%float 5%float doc))
               ring_element eq_refl).
Defined.


End Witnesses.

(** * The facts about runs at concrete inputs *)

Module RunWitnesses.

Lemma outer_edge_commands_witness :
  outer_edge (H := js_series) 5%float 16 =
  EDo "shape" "moveTo"
    [VNum (fst (point (H := js_series) 5%float 16 0));
     VNum (snd (point (H := js_series) 5%float 16 0))]
  :: map (fun k => EDo "shape" "lineTo"
                     [VNum (fst (point (H := js_series) 5%float 16 (1 + Z.of_nat k)));
                      VNum (snd (point (H := js_series) 5%float 16 (1 + Z.of_nat k)))])
         (seq 0 (Z.to_nat 16)).
Proof.
  apply (outer_edge_commands (H := js_series) 5%float 16). lia.
Defined.

Lemma negative_waves_draw_no_edge_witness :
  let run := create3DRingViewer (H := js_series) ring_page "ring" "TR-10"
               10%float 5%float (Some 0x1.9fbe76c8b4396p-3%float) (Some (-1)) in
  outline (snd run) = [] /\
  hole_radius (snd run) = Some 0x1.33020c49ba5e3p+2%float /\
  fst run = handle_bundle "TR-10".
Proof.
  pose proof (negative_waves_draw_no_edge (H := js_series) ring_page "ring" "TR-10"
                10%float 5%float 0x1.9fbe76c8b4396p-3%float (-1) ring_element
                eq_refl ltac:(lia)) as (Hout & Hhole & Hret & _).
  exact (conj Hout (conj Hhole Hret)).
Defined.

Lemma container_only_gains_canvas_and_overlay_witness :
  effects_on "container"
    (snd (create3DRingViewer (H := js_series) ring_page "ring" "TR-10"
            10%float 5%float None None))
  = [ EDo "container" "appendChild" [VField "renderer" "domElement"];
      ESet "container" "style.position" (VStr "relative");
      EDo "container" "appendChild" [VRef "infoDiv"] ].
Proof.
  apply (container_only_gains_canvas_and_overlay (H := js_series)
           ring_page "ring" "TR-10" 10%float 5%float None None ring_element).
  reflexivity.
Defined.

Lemma animation_keeps_one_pending_frame_witness :
  let run := create3DRingViewer (H := js_series) ring_page "ring" "TR-10"
               10%float 5%float None None in
  frame_requests (snd run) = [animate] /\
  forall (later : Document float) (n : nat),
    run_frames (H := js_series) later n (frame_requests (snd run))
    = (List.concat (repeat animate_body n), [animate]).
Proof.
  apply (animation_keeps_one_pending_frame (H := js_series)
           ring_page "ring" "TR-10" 10%float 5%float None None ring_element).
  reflexivity.
Defined.


Lemma overlay_reports_the_dimensions_used_witness :
  hole_radius
    (snd (create3DRingViewer (H := js_series) ring_page "ring" "TR-10"
            10%float 5%float None None))
  = Some 0x1.33020c49ba5e3p+2%float.
Proof.
  exact (proj1 (proj2 (overlay_reports_the_dimensions_used (H := js_series)
                         ring_page "ring" "TR-10" 10%float 5%float None None ring_element
                         eq_refl ltac:(unfold default, default_waves; lia)))).
Defined.

Lemma container_ids_collide_only_in_one_millisecond_witness :
  map viewer_target
    (timers (snd (generateRing3D (H := js_series) 1700000000000 "TR-10" 10%float 5%float)))
  = map viewer_target
      (timers (snd (generateRing3D (H := js_series) 1700000000000 "TR-12" 12%float 6%float))).
Proof.
  apply (container_ids_collide_only_in_one_millisecond (H := js_series)
           1700000000000 1700000000000 "TR-10" "TR-12" 10%float 12%float 5%float 6%float).
  reflexivity.
Defined.

Lemma callback_without_markup_does_nothing_witness :
  call_closure (H := js_series) ring_page
    (initViewer "ring3d-1700000000000" "TR-10" 10%float 5%float)
  = (VUndefined, []).
Proof.
  apply (callback_without_markup_does_nothing (H := js_series)
           1700000000000 "TR-10" 10%float 5%float ring_page "ring3d-1700000000000"
           (initViewer "ring3d-1700000000000" "TR-10" 10%float 5%float) 100%float).
  - vm_compute. reflexivity.
  - left. reflexivity.
  - reflexivity.
Defined.

Lemma zero_waves_give_a_nan_point_witness :
  outline
    (snd (create3DRingViewer (H := js_series) ring_page "ring" "TR-10"
            10%float 5%float None (Some 0)))
  = [(nan, nan)].
Proof.
  apply (Binary64Edge.zero_waves_give_a_nan_point series_sin series_cos
           eq_refl eq_refl ring_page "ring" "TR-10" 10%float 5%float None ring_element).
  reflexivity.
Defined.

Lemma zero_height_container_gives_no_finite_aspect_witness :
  let tr := snd (create3DRingViewer (H := js_series)
                   (page_with "ring" 800%float 0%float) "ring" "TR-10" 10%float 5%float
                   None None) in
  exists aspect : float,
    const_value "camera" tr
    = Some (VNew "THREE.PerspectiveCamera"
              [VNum 45%float; VNum aspect; VNum 0x1.999999999999ap-4%float;
               VNum 1000%float]) /\
    (Prim2SF aspect = S754_nan \/ exists s, Prim2SF aspect = S754_infinity s).
Proof.
  apply (Binary64Edge.zero_height_container_gives_no_finite_aspect
           series_sin series_cos
           (page_with "ring" 800%float 0%float) "ring" "TR-10" 10%float 5%float
           None None {| clientWidth := 800%float; clientHeight := 0%float |});
    reflexivity.
Defined.

End RunWitnesses.
